(** * Nasa-Weather-Insights: the historical climate analysis of [app.py]

    A shallow embedding of the analysis part of [src/app.py]
    ([get_historical_weather_nasa]'s record-building loop,
    [analyze_weather_data], [determine_main_condition], [generate_tip])
    and the properties its specification states about it.

    Numbers.  The measured quantities are Python floats.  A finite float is
    modelled by the rational number it denotes ([Q]); NaN and the infinities
    are outside the model, as the data model has every present field a
    finite number.  [statistics.mean] adds its arguments exactly and
    converts the quotient to the nearest float; the model keeps the exact
    quotient, and likewise the exact quotient and product of the
    percentages.  [round] is round-half-to-even, as in Python 3. *)

From Stdlib Require Import ZArith QArith Qround Qabs Lia Lqa.
From Stdlib Require Import DecimalString.
From Stdlib Require DecimalPos DecimalZ.
From stdpp Require Import gmap strings list sorting.

Local Open Scope Z_scope.
Local Open Scope string_scope.

(** ** Python primitives used by the analysis *)

Module Py.

(** Exceptions the primitives can raise. *)
Inductive exception : Type :=
  | StatisticsError
  | ValueError
  | ZeroDivisionError.

(** The outcome of evaluating an expression: it raises or it has a value. *)
Inductive outcome (A : Type) : Type :=
  | Raised (e : exception)
  | Returned (a : A).
Arguments Raised {A} e.
Arguments Returned {A} a.

#[global] Instance outcome_ret : MRet outcome := fun A a => Returned a.
#[global] Instance outcome_bind : MBind outcome := fun A B f m =>
  match m with
  | Raised e => Raised e
  | Returned a => f a
  end.
#[global] Instance outcome_fmap : FMap outcome := fun A B f m =>
  match m with
  | Raised e => Raised e
  | Returned a => Returned (f a)
  end.

(** [x < y] and [x > y] on floats. *)
Definition lt (x y : Q) : bool := negb (Qle_bool y x).
Definition gt (x y : Q) : bool := lt y x.
Definition le (x y : Q) : bool := Qle_bool x y.

(** A number held in one of the locals after rounding: the [int] literal
    [0] of the defaults, or the float [round(x, 1)] returns, which is
    a signed count of tenths (the sign is kept apart, as IEEE floats have a
    negative zero and [round(-0.04, 1)] is [-0.0]). *)
Inductive num : Type :=
  | Int (z : Z)
  | Float1 (neg : bool) (tenths : N).

Definition value (x : num) : Q :=
  match x with
  | Int z => inject_Z z
  | Float1 neg t => (if neg then - Z.of_N t else Z.of_N t) # 10
  end.

(** Nearest integer, ties to the even one. *)
Definition round_half_even (q : Q) : Z :=
  let f := Qfloor q in
  match Qcompare (q - inject_Z f) (1 # 2) with
  | Lt => f
  | Gt => f + 1
  | Eq => if Z.even f then f else f + 1
  end.

(** [round(x)]: an [int]. *)
Definition round (x : Q) : Z := round_half_even x.

(** [round(x, 1)] on a float: a float with one decimal, sign kept. *)
Definition round1 (x : Q) : num :=
  Float1 (lt x 0) (Z.to_N (Z.abs (round_half_even (x * 10)))).

(** [sum] of a list of floats, exact. *)
Definition sum (l : list Q) : Q := fold_left Qplus l 0%Q.

(** [statistics.mean]: raises [StatisticsError] on no data. *)
Definition mean (l : list Q) : outcome Q :=
  match l with
  | [] => Raised StatisticsError
  | _ :: _ => Returned (sum l / inject_Z (Z.of_nat (length l)))%Q
  end.

(** [min] and [max] of a list: [ValueError] on an empty one; the first of
    several equal extremes is the one returned. *)
Definition min (l : list Q) : outcome Q :=
  match l with
  | [] => Raised ValueError
  | x :: l' => Returned (fold_left (fun m y => if lt y m then y else m) l' x)
  end.

Definition max (l : list Q) : outcome Q :=
  match l with
  | [] => Raised ValueError
  | x :: l' => Returned (fold_left (fun m y => if gt y m then y else m) l' x)
  end.

(** [a / b] on two ints: a float, [ZeroDivisionError] when [b] is 0. *)
Definition truediv (a b : Z) : outcome Q :=
  if (b =? 0)%Z then Raised ZeroDivisionError
  else Returned (inject_Z a / inject_Z b)%Q.

(** [sum(1 for x in l if p x)]. *)
Definition count_if (p : Q -> bool) (l : list Q) : Z :=
  fold_left Z.add (map (fun _ => 1) (List.filter p l)) 0.

(** [str] of an int. *)
Definition str_int (z : Z) : string := NilZero.string_of_int (Z.to_int z).

(** [str] of a number as an f-string renders it.  For a float with one
    decimal this is the shortest representation Python prints, for
    magnitudes below 10^16 (above, it prints an exponent). *)
Definition str (x : num) : string :=
  match x with
  | Int z => str_int z
  | Float1 neg t =>
      (if neg then "-" else "")
      ++ str_int (Z.of_N t / 10) ++ "." ++ str_int (Z.of_N t mod 10)
  end.

(** The format [{z:02d}]: zero-padded to two characters. *)
Definition str_02d (z : Z) : string :=
  let s := str_int z in
  if (String.length s <? 2)%nat then "0" ++ s else s.

(** [range(a, b)]. *)
Definition range (a b : Z) : list Z := seqZ a (b - a).

End Py.

(** ** The condition classifier *)

(** [determine_main_condition], lines 180-195.  Its arguments are compared
    with integer constants only, so they enter by their values. *)
Definition determine_main_condition (avg_temp max_temp avg_rain max_wind : Q)
  : string :=
  if Py.gt avg_rain 10 then "Rainy"
  else if Py.gt max_temp 32 then "Hot"
  else if Py.lt avg_temp 10 then "Cold"
  else if Py.gt max_wind 12 then "Windy"
  else if Py.le 18 avg_temp && Py.le avg_temp 25 then "Pleasant"
  else if Py.gt avg_temp 25 then "Warm"
  else "Cool".

(** ** Data model *)

(** One entry of [historical_data]: the dict built at lines 113-122.  A
    field that is [None] in the dict is [None] here. *)
Record YearlyObservation : Type := {
  year : Z;
  date : string;
  temp_avg : option Q;
  temp_max : option Q;
  temp_min : option Q;
  wind_avg : option Q;
  wind_max : option Q;
  precip : option Q
}.

(** The [probs] dict, lines 160-165. *)
Record Probabilities : Type := {
  very_hot : Z;
  very_cold : Z;
  very_windy : Z;
  very_wet : Z
}.

(** The locals of [analyze_weather_data] once line 165 is reached. *)
Record Locals : Type := {
  avg_temp : Py.num;
  min_temp : Py.num;
  max_temp : Py.num;
  avg_wind : Py.num;
  max_wind : Py.num;
  avg_rain : Py.num;
  max_rain : Py.num;
  main_prediction : string;
  total_days : Z;
  probs : Probabilities
}.

(** The [results] dict, lines 167-175. *)
Record AnalysisResult : Type := {
  r_main_prediction : string;
  r_temp_range : string;
  r_avg_temp : Py.num;
  r_wind_info : string;
  r_rain_info : string;
  r_probabilities : Probabilities;
  r_confidence : string
}.

(** ** The statistical aggregator *)

(** [[d[f] for d in historical_data if d.get(f) is not None]]. *)
Definition valid (field : YearlyObservation -> option Q)
    (historical_data : list YearlyObservation) : list Q :=
  omap field historical_data.

(** [not l] on a list. *)
Definition is_empty {A : Type} (l : list A) : bool :=
  match l with [] => true | _ :: _ => false end.

(** [round((count / total_days) * 100) if total_days > 0 else 0]. *)
Definition probability (count total_days : Z) : Py.outcome Z :=
  if (0 <? total_days)%Z then
    q ← Py.truediv count total_days;
    mret (Py.round (q * 100)%Q)
  else mret 0.

(** Lines 136-165 of [analyze_weather_data]: [None] at either early
    return, the locals otherwise. *)
Definition analysis_locals (historical_data : list YearlyObservation)
  : Py.outcome (option Locals) :=
  if is_empty historical_data then mret None else
  let valid_temps_avg := valid temp_avg historical_data in
  let valid_temps_max := valid temp_max historical_data in
  let valid_temps_min := valid temp_min historical_data in
  let valid_winds_avg := valid wind_avg historical_data in
  let valid_winds_max := valid wind_max historical_data in
  let valid_precip := valid precip historical_data in
  if is_empty valid_temps_avg then mret None else
  avg_temp ← Py.round1 <$> Py.mean valid_temps_avg;
  min_temp ← (if is_empty valid_temps_min then mret avg_temp
              else Py.round1 <$> Py.min valid_temps_min);
  max_temp ← (if is_empty valid_temps_max then mret avg_temp
              else Py.round1 <$> Py.max valid_temps_max);
  avg_wind ← (if is_empty valid_winds_avg then mret (Py.Int 0)
              else Py.round1 <$> Py.mean valid_winds_avg);
  max_wind ← (if is_empty valid_winds_max then mret (Py.Int 0)
              else Py.round1 <$> Py.max valid_winds_max);
  avg_rain ← (if is_empty valid_precip then mret (Py.Int 0)
              else Py.round1 <$> Py.mean valid_precip);
  max_rain ← (if is_empty valid_precip then mret (Py.Int 0)
              else Py.round1 <$> Py.max valid_precip);
  let main_prediction :=
    determine_main_condition (Py.value avg_temp) (Py.value max_temp)
      (Py.value avg_rain) (Py.value max_wind) in
  let total_days := Z.of_nat (length historical_data) in
  very_hot ← probability
    (Py.count_if (fun t => Py.gt t 30) valid_temps_max) total_days;
  very_cold ← probability
    (Py.count_if (fun t => Py.lt t 10) valid_temps_min) total_days;
  very_windy ← probability
    (Py.count_if (fun w => Py.gt w 10) valid_winds_max) total_days;
  very_wet ← probability
    (Py.count_if (fun r => Py.gt r 10) valid_precip) total_days;
  mret (Some {|
    avg_temp := avg_temp; min_temp := min_temp; max_temp := max_temp;
    avg_wind := avg_wind; max_wind := max_wind;
    avg_rain := avg_rain; max_rain := max_rain;
    main_prediction := main_prediction;
    total_days := total_days;
    probs := {| very_hot := very_hot; very_cold := very_cold;
                very_windy := very_windy; very_wet := very_wet |}
  |}).

(** Lines 167-175: the dict returned. *)
Definition results_of (v : Locals) : AnalysisResult := {|
  r_main_prediction := main_prediction v;
  r_temp_range :=
    Py.str (min_temp v) ++ "°C - " ++ Py.str (max_temp v) ++ "°C";
  r_avg_temp := avg_temp v;
  r_wind_info :=
    Py.str (avg_wind v) ++ " m/s (max: " ++ Py.str (max_wind v) ++ " m/s)";
  r_rain_info :=
    Py.str (avg_rain v) ++ " mm (max: " ++ Py.str (max_rain v) ++ " mm)";
  r_probabilities := probs v;
  r_confidence := Py.str_int (total_days v) ++ " years of NASA data"
|}.

(** [analyze_weather_data], lines 134-177. *)
Definition analyze_weather_data (historical_data : list YearlyObservation)
  : Py.outcome (option AnalysisResult) :=
  match analysis_locals historical_data with
  | Py.Raised e => Py.Raised e
  | Py.Returned None => Py.Returned None
  | Py.Returned (Some v) => Py.Returned (Some (results_of v))
  end.

(** ** The advisory generator *)

(** [generate_tip], lines 198-209. *)
Definition generate_tip (main_prediction temp_range rain_info : string)
  : string :=
  let tips : gmap string string := list_to_map [
    ("Hot", "Hot day ahead (" ++ temp_range ++
            "). Drink water often, wear light clothes, and avoid too much sun.");
    ("Warm", "Warm and comfy (" ++ temp_range ++
             "). Great for outdoor stuff, just stay hydrated.");
    ("Pleasant", "Perfect day (" ++ temp_range ++
                 "). Ideal for outdoor plans!");
    ("Cool", "Cool temperatures (" ++ temp_range ++
             "). A light jacket should be fine.");
    ("Cold", "Cold weather (" ++ temp_range ++ "). Bundle up properly.");
    ("Rainy", "Expect rain (" ++ rain_info ++
              "). Carry an umbrella or raincoat.");
    ("Windy",
     "Strong winds expected. Be careful with outdoor setups or travel.")
  ] in
  default "Check the weather before heading out." (tips !! main_prediction).

(** Lines 240-249 of the [results] route: the analysis, then the tip for
    it; [None] when the route flashes its error instead. *)
Definition analysis_and_tip (historical_data : list YearlyObservation)
  : Py.outcome (option (AnalysisResult * string)) :=
  match analyze_weather_data historical_data with
  | Py.Raised e => Py.Raised e
  | Py.Returned None => Py.Returned None
  | Py.Returned (Some analysis) =>
      let tip := generate_tip (r_main_prediction analysis)
                   (r_temp_range analysis) (r_rain_info analysis) in
      Py.Returned (Some (analysis, tip))
  end.

(** ** The observation set builder *)

(** What the code reads of the reply of NASA POWER: the status, and
    [data['properties']['parameter']] when both keys are there.  The latter
    maps a parameter name to its series, a series maps a date string to a
    number or to a JSON null. *)
Record Response : Type := {
  status_code : Z;
  parameter : option (gmap string (gmap string (option Q)))
}.

(** [params_data.get(name, {}).get(date_str)]. *)
Definition get_value (params_data : gmap string (gmap string (option Q)))
    (name date_str : string) : option Q :=
  match default ∅ (params_data !! name) !! date_str with
  | Some v => v
  | None => None
  end.

(** [f"{year}{month:02d}{day:02d}"]. *)
Definition date_string (year month day : Z) : string :=
  Py.str_int year ++ Py.str_02d month ++ Py.str_02d day.

(** The dict appended at lines 113-122. *)
Definition year_entry (params_data : gmap string (gmap string (option Q)))
    (year : Z) (date_str : string) : YearlyObservation := {|
  year := year;
  date := date_str;
  temp_avg := get_value params_data "T2M" date_str;
  temp_max := get_value params_data "T2M_MAX" date_str;
  temp_min := get_value params_data "T2M_MIN" date_str;
  wind_avg := get_value params_data "WS10M" date_str;
  wind_max := get_value params_data "WS10M_MAX" date_str;
  precip := get_value params_data "PRECTOTCORR" date_str
|}.

(** One turn of the loop of lines 109-122. *)
Definition collect_year (params_data : gmap string (gmap string (option Q)))
    (month day : Z) (all_data : list YearlyObservation) (year : Z)
  : list YearlyObservation :=
  let date_str := date_string year month day in
  let temp_data := default ∅ (params_data !! "T2M") in
  if bool_decide (is_Some (temp_data !! date_str)) then
    all_data ++ [year_entry params_data year date_str]
  else all_data.

(** [get_historical_weather_nasa], lines 67-131, from the reply on: the
    request and the clock are its environment, so the reply and the current
    year are arguments; [month] and [day] are those of [target_date]. *)
Definition get_historical_weather_nasa (response : Response)
    (current_year month day years : Z) : list YearlyObservation :=
  let start_year := current_year - years in
  let end_year := current_year - 1 in
  if negb (status_code response =? 200)%Z then []
  else match parameter response with
       | None => []
       | Some params_data =>
           fold_left (collect_year params_data month day)
             (Py.range start_year (end_year + 1)) []
       end.

(** ** The classification policy, as the specification words it *)

Definition seven_labels : list string :=
  ["Rainy"; "Hot"; "Cold"; "Windy"; "Pleasant"; "Warm"; "Cool"].

(** The first label whose condition holds, [otherwise] when none does. *)
Fixpoint first_match {A : Type} (rules : list ((A -> bool) * string))
    (otherwise : string) (x : A) : string :=
  match rules with
  | [] => otherwise
  | (condition, label) :: rules' =>
      if condition x then label else first_match rules' otherwise x
  end.

(** The ordered rules 1 to 6 on (avg_temp, max_temp, avg_rain, max_wind). *)
Definition priority_rules : list ((Q * Q * Q * Q -> bool) * string) := [
  (fun '(_, _, avg_rain, _) => Py.gt avg_rain 10, "Rainy");
  (fun '(_, max_temp, _, _) => Py.gt max_temp 32, "Hot");
  (fun '(avg_temp, _, _, _) => Py.lt avg_temp 10, "Cold");
  (fun '(_, _, _, max_wind) => Py.gt max_wind 12, "Windy");
  (fun '(avg_temp, _, _, _) => Py.le 18 avg_temp && Py.le avg_temp 25,
   "Pleasant");
  (fun '(avg_temp, _, _, _) => Py.gt avg_temp 25, "Warm")
].

(** The same policy as a relation: a rule gives its label when its
    condition holds and no earlier one does. *)
Inductive MainCondition (avg_temp max_temp avg_rain max_wind : Q)
  : string -> Prop :=
  | Rule_Rainy :
      (10 < avg_rain)%Q ->
      MainCondition avg_temp max_temp avg_rain max_wind "Rainy"
  | Rule_Hot :
      (avg_rain <= 10)%Q -> (32 < max_temp)%Q ->
      MainCondition avg_temp max_temp avg_rain max_wind "Hot"
  | Rule_Cold :
      (avg_rain <= 10)%Q -> (max_temp <= 32)%Q -> (avg_temp < 10)%Q ->
      MainCondition avg_temp max_temp avg_rain max_wind "Cold"
  | Rule_Windy :
      (avg_rain <= 10)%Q -> (max_temp <= 32)%Q -> (10 <= avg_temp)%Q ->
      (12 < max_wind)%Q ->
      MainCondition avg_temp max_temp avg_rain max_wind "Windy"
  | Rule_Pleasant :
      (avg_rain <= 10)%Q -> (max_temp <= 32)%Q -> (max_wind <= 12)%Q ->
      (18 <= avg_temp)%Q -> (avg_temp <= 25)%Q ->
      MainCondition avg_temp max_temp avg_rain max_wind "Pleasant"
  | Rule_Warm :
      (avg_rain <= 10)%Q -> (max_temp <= 32)%Q -> (max_wind <= 12)%Q ->
      (25 < avg_temp)%Q ->
      MainCondition avg_temp max_temp avg_rain max_wind "Warm"
  | Rule_Cool :
      (avg_rain <= 10)%Q -> (max_temp <= 32)%Q -> (max_wind <= 12)%Q ->
      (10 <= avg_temp)%Q -> (avg_temp < 18)%Q ->
      MainCondition avg_temp max_temp avg_rain max_wind "Cool".

(** ** Notions of the specification about observation sets *)

(** The engine accepts an observation set when at least one entry has a
    temperature average. *)
Definition accepted (obs : list YearlyObservation) : Prop :=
  Exists (fun d => is_Some (temp_avg d)) obs.

(** A field that no entry has. *)
Definition entirely_absent (field : YearlyObservation -> option Q)
    (obs : list YearlyObservation) : Prop :=
  Forall (fun d => field d = None) obs.

(** The number of records whose [field] is present and crosses the
    threshold. *)
Definition crossing (field : YearlyObservation -> option Q)
    (crosses : Q -> bool) (obs : list YearlyObservation) : Z :=
  Z.of_nat (length (List.filter
    (fun d => match field d with Some x => crosses x | None => false end)
    obs)).

(** A year has data when at least one of its six fields is present; only
    such a year has anything to put into a statistic. *)
Definition has_data (d : YearlyObservation) : bool :=
  bool_decide (is_Some (temp_avg d)) || bool_decide (is_Some (temp_max d))
  || bool_decide (is_Some (temp_min d)) || bool_decide (is_Some (wind_avg d))
  || bool_decide (is_Some (wind_max d)) || bool_decide (is_Some (precip d)).

Definition years_with_data (obs : list YearlyObservation) : Z :=
  Z.of_nat (length (List.filter has_data obs)).



(** What the locals of an accepted set hold, statistic by statistic. *)
Record Aggregated (obs : list YearlyObservation) (v : Locals) : Prop := {
  agg_avg_temp :
    Py.round1 <$> Py.mean (valid temp_avg obs) = Py.Returned (avg_temp v);
  agg_min_temp :
    if is_empty (valid temp_min obs) then min_temp v = avg_temp v
    else Py.round1 <$> Py.min (valid temp_min obs) = Py.Returned (min_temp v);
  agg_max_temp :
    if is_empty (valid temp_max obs) then max_temp v = avg_temp v
    else Py.round1 <$> Py.max (valid temp_max obs) = Py.Returned (max_temp v);
  agg_avg_wind :
    if is_empty (valid wind_avg obs) then avg_wind v = Py.Int 0
    else Py.round1 <$> Py.mean (valid wind_avg obs) = Py.Returned (avg_wind v);
  agg_max_wind :
    if is_empty (valid wind_max obs) then max_wind v = Py.Int 0
    else Py.round1 <$> Py.max (valid wind_max obs) = Py.Returned (max_wind v);
  agg_avg_rain :
    if is_empty (valid precip obs) then avg_rain v = Py.Int 0
    else Py.round1 <$> Py.mean (valid precip obs) = Py.Returned (avg_rain v);
  agg_max_rain :
    if is_empty (valid precip obs) then max_rain v = Py.Int 0
    else Py.round1 <$> Py.max (valid precip obs) = Py.Returned (max_rain v);
  agg_main_prediction :
    main_prediction v =
      determine_main_condition (Py.value (avg_temp v)) (Py.value (max_temp v))
        (Py.value (avg_rain v)) (Py.value (max_wind v));
  agg_total_days : total_days v = Z.of_nat (length obs);
  agg_very_hot :
    probability (Py.count_if (fun t => Py.gt t 30) (valid temp_max obs))
      (Z.of_nat (length obs)) = Py.Returned (very_hot (probs v));
  agg_very_cold :
    probability (Py.count_if (fun t => Py.lt t 10) (valid temp_min obs))
      (Z.of_nat (length obs)) = Py.Returned (very_cold (probs v));
  agg_very_windy :
    probability (Py.count_if (fun w => Py.gt w 10) (valid wind_max obs))
      (Z.of_nat (length obs)) = Py.Returned (very_windy (probs v));
  agg_very_wet :
    probability (Py.count_if (fun r => Py.gt r 10) (valid precip obs))
      (Z.of_nat (length obs)) = Py.Returned (very_wet (probs v))
}.


(** Whether the temperature series of the reply has the date of [y]. *)
Definition has_temperature
    (params_data : gmap string (gmap string (option Q))) (month day y : Z)
  : bool :=
  bool_decide
    (is_Some (default ∅ (params_data !! "T2M") !! date_string y month day)).

(** ** Observation sets used as examples *)

Definition observation (y : Z) (ta tx tn wa wx pr : option Q)
  : YearlyObservation := {|
  year := y; date := date_string y 7 15;
  temp_avg := ta; temp_max := tx; temp_min := tn;
  wind_avg := wa; wind_max := wx; precip := pr
|}.

(** Scenario A of the specification. *)
Definition scenario_A : list YearlyObservation := [
  observation 2021 (Some 20%Q) (Some 25%Q) (Some 15%Q)
    (Some 3%Q) (Some 6%Q) (Some 1%Q);
  observation 2022 (Some 22%Q) (Some 26%Q) (Some 16%Q)
    (Some 4%Q) (Some 7%Q) (Some 2%Q);
  observation 2023 (Some 24%Q) (Some 27%Q) (Some 17%Q)
    (Some 5%Q) (Some 8%Q) (Some 1%Q)
].

(** One year that has its temperature average only. *)
Definition only_temperature : list YearlyObservation :=
  [observation 2023 (Some 20%Q) None None None None None].

(** A complete year followed by a year none of whose fields is there. *)
Definition with_empty_year : list YearlyObservation := [
  observation 2022 (Some 22%Q) (Some 26%Q) (Some 16%Q)
    (Some 4%Q) (Some 7%Q) (Some 2%Q);
  observation 2023 None None None None None None
].

(** Two years, of which only the first has a maximal temperature, 35. *)
Definition one_hot_of_two : list YearlyObservation := [
  observation 2022 (Some 28%Q) (Some 35%Q) None None None None;
  observation 2023 (Some 27%Q) None None None None None
].


(** A reply with three years of precipitation and wind, of which 2022 has
    no temperature average; 2021 has only its temperature average. *)
Definition sample_response : Response := {|
  status_code := 200;
  parameter := Some (list_to_map [
    ("T2M", list_to_map [("20210715", Some (215 # 10)%Q);
                         ("20230715", Some (231 # 10)%Q)]);
    ("WS10M_MAX", list_to_map [("20220715", Some (9 # 1)%Q);
                               ("20230715", Some (7 # 1)%Q)]);
    ("PRECTOTCORR", list_to_map [("20220715", Some (12 # 1)%Q);
                                 ("20230715", Some (3 # 1)%Q)])
  ])
|}.

(** ** The location resolver *)

(** The dict [get_coordinates] returns. *)
Record Coordinates : Type := {
  lat : Q;
  lon : Q;
  display_name : string
}.

(** [fallback_cities], lines 20-30, in the order of the dict literal (a
    Python dict iterates in insertion order). *)
Definition fallback_cities : list (string * Coordinates) := [
  ("douala", {| lat := (40511 # 10000)%Q; lon := (97679 # 10000)%Q;
                display_name := "Douala, Cameroon" |});
  ("yaounde", {| lat := (38480 # 10000)%Q; lon := (115021 # 10000)%Q;
                 display_name := "Yaoundé, Cameroon" |});
  ("paris", {| lat := (488566 # 10000)%Q; lon := (23522 # 10000)%Q;
               display_name := "Paris, France" |});
  ("london", {| lat := (515074 # 10000)%Q; lon := (- 1278 # 10000)%Q;
                display_name := "London, UK" |});
  ("new york", {| lat := (407128 # 10000)%Q; lon := (- 740060 # 10000)%Q;
                  display_name := "New York, USA" |});
  ("tokyo", {| lat := (356762 # 10000)%Q; lon := (1396503 # 10000)%Q;
               display_name := "Tokyo, Japan" |});
  ("lagos", {| lat := (65244 # 10000)%Q; lon := (33792 # 10000)%Q;
               display_name := "Lagos, Nigeria" |});
  ("nairobi", {| lat := (- 12864 # 10000)%Q; lon := (368172 # 10000)%Q;
                 display_name := "Nairobi, Kenya" |});
  ("cairo", {| lat := (300444 # 10000)%Q; lon := (312357 # 10000)%Q;
               display_name := "Cairo, Egypt" |})
].

(** [a in b] on two strings: [a] occurs in [b]. *)
Fixpoint is_in (a b : string) : bool :=
  String.prefix a b
  || match b with
     | EmptyString => false
     | String _ b' => is_in a b'
     end.

(** [d.get(key)] on a dict given by its items. *)
Definition dict_get {A : Type} (key : string) (d : list (string * A))
  : option A :=
  snd <$> List.find (fun item => bool_decide (item.1 = key)) d.

(** The loop of lines 47-50 and 58-61: the first city, in the order of the
    dict, that occurs in the location or in which the location occurs. *)
Definition fuzzy_match (location_lower : string) : option Coordinates :=
  snd <$> List.find
    (fun item => is_in item.1 location_lower || is_in location_lower item.1)
    fallback_cities.

(** What became of the request of lines 40-43: it timed out, it failed
    otherwise (the connection, the status, the decoding), or it gave the
    list [data]; of an element of [data] the code reads the three fields,
    and [None] here is an element of which reading them raises. *)
Inductive GeocoderReply : Type :=
  | Timeout
  | Failure
  | Data (data : list (option Coordinates)).

(** [get_coordinates], lines 14-64, from [location_lower] on: the value of
    [location.lower().strip()] and the reply of the service are its
    arguments. *)
Definition get_coordinates (location_lower : string) (reply : GeocoderReply)
  : option Coordinates :=
  match dict_get location_lower fallback_cities with
  | Some coords => Some coords
  | None =>
      match reply with
      | Timeout => fuzzy_match location_lower
      | Failure => None
      | Data [] => fuzzy_match location_lower
      | Data (None :: _) => None
      | Data (Some found :: _) => Some found
      end
  end.

(** ** Further notions *)

(** [a] occurs in [b]. *)
Definition occurs_in (a b : string) : Prop :=
  exists before after : string, b = before ++ a ++ after.

(** A city name and a location that the fuzzy match takes for each
    other. *)
Definition alike (city location_lower : string) : Prop :=
  occurs_in city location_lower \/ occurs_in location_lower city.

(** An entry that has its three temperatures, in order. *)
Definition temperatures_in_order (d : YearlyObservation) : Prop :=
  exists tn ta tx : Q,
    temp_min d = Some tn /\ temp_avg d = Some ta /\ temp_max d = Some tx
    /\ (tn <= ta)%Q /\ (ta <= tx)%Q.

(** A reply with one year whose temperature average is a JSON null. *)
Definition null_response : Response := {|
  status_code := 200;
  parameter := Some (list_to_map [
    ("T2M", list_to_map [("20220715", None);
                         ("20230715", Some (231 # 10)%Q)])
  ])
|}.

(** * Properties *)

(** ** Comparisons *)

Lemma lt_true (x y : Q) : Py.lt x y = true <-> (x < y)%Q.
Proof.
  unfold Py.lt. rewrite negb_true_iff, <- not_true_iff_false, Qle_bool_iff.
  split; [apply Qnot_le_lt | apply Qlt_not_le].
Qed.

Lemma lt_false (x y : Q) : Py.lt x y = false <-> (y <= x)%Q.
Proof.
  unfold Py.lt. rewrite negb_false_iff. apply Qle_bool_iff.
Qed.

Lemma gt_true (x y : Q) : Py.gt x y = true <-> (y < x)%Q.
Proof. apply lt_true. Qed.

Lemma gt_false (x y : Q) : Py.gt x y = false <-> (x <= y)%Q.
Proof. apply lt_false. Qed.

Lemma le_true (x y : Q) : Py.le x y = true <-> (x <= y)%Q.
Proof. apply Qle_bool_iff. Qed.

Lemma le_false (x y : Q) : Py.le x y = false <-> (y < x)%Q.
Proof.
  unfold Py.le. rewrite <- not_true_iff_false, Qle_bool_iff.
  split; [apply Qnot_le_lt | apply Qlt_not_le].
Qed.

(** Turns every comparison the classifier made into the inequality it
    decided. *)
Ltac decided :=
  repeat match goal with
  | H : Py.lt _ _ = true |- _ => apply lt_true in H
  | H : Py.lt _ _ = false |- _ => apply lt_false in H
  | H : Py.gt _ _ = true |- _ => apply gt_true in H
  | H : Py.gt _ _ = false |- _ => apply gt_false in H
  | H : Py.le _ _ = true |- _ => apply le_true in H
  | H : Py.le _ _ = false |- _ => apply le_false in H
  end.

(** ** The classifier *)

Lemma determine_main_condition_sound (a m r w : Q) :
  MainCondition a m r w (determine_main_condition a m r w).
Proof.
  unfold determine_main_condition.
  destruct (Py.gt r 10) eqn:Hr; [decided; by constructor |].
  destruct (Py.gt m 32) eqn:Hm; [decided; by constructor |].
  destruct (Py.lt a 10) eqn:Hc; [decided; by constructor |].
  destruct (Py.gt w 12) eqn:Hw; [decided; by constructor |].
  destruct (Py.le 18 a) eqn:Hlo; destruct (Py.le a 25) eqn:Hhi; simpl;
    [decided; by constructor | | | ].
  - destruct (Py.gt a 25) eqn:Hg; decided; [by constructor | lra].
  - destruct (Py.gt a 25) eqn:Hg; decided; [lra | by constructor].
  - decided; lra.
Qed.

(** Scenario D of the specification, and an input on which rules 1, 2 and
    4 all hold. *)
Example scenario_D : determine_main_condition 5 8 0 3 = "Cold".
Proof. reflexivity. Qed.

Example rainy_before_hot_and_windy :
  determine_main_condition 30 35 11 20 = "Rainy".
Proof. reflexivity. Qed.

Lemma MainCondition_functional (a m r w : Q) (l1 l2 : string) :
  MainCondition a m r w l1 -> MainCondition a m r w l2 -> l1 = l2.
Proof.
  intros H1 H2; destruct H1; destruct H2; try reflexivity; lra.
Qed.

Lemma seven_labels_NoDup : NoDup seven_labels.
Proof. apply (bool_decide_unpack _). vm_compute. exact I. Qed.

(** C1: for all real inputs the classifier returns exactly one of the seven
    labels, the one of the earliest rule whose condition holds: it computes
    the first match of the ordered rule list with "Cool" as the final else,
    and a label is its result if and only if the rule of that label is the
    first to apply. *)
Theorem determine_main_condition_first_match_wins :
  forall avg_temp max_temp avg_rain max_wind : Q,
    let label := determine_main_condition avg_temp max_temp avg_rain max_wind in
    label = first_match priority_rules "Cool"
              (avg_temp, max_temp, avg_rain, max_wind)
    /\ In label seven_labels
    /\ forall l : string,
         MainCondition avg_temp max_temp avg_rain max_wind l <-> label = l.
Proof.
  intros a m r w label. split; [| split].
  - subst label. unfold determine_main_condition. simpl.
    repeat match goal with |- context [if ?b then _ else _] =>
      destruct b; try reflexivity end.
  - pose proof (determine_main_condition_sound a m r w) as H.
    fold label in H. unfold seven_labels.
    destruct H; simpl; tauto.
  - intros l. split.
    + intros H. eapply MainCondition_functional; [| exact H].
      apply determine_main_condition_sound.
    + intros <-. apply determine_main_condition_sound.
Qed.

(** ** Rounding *)

Lemma round_half_even_comp (q q' : Q) :
  (q == q')%Q -> Py.round_half_even q = Py.round_half_even q'.
Proof.
  intros H. unfold Py.round_half_even.
  rewrite (Qfloor_comp _ _ H).
  replace (Qcompare (q - inject_Z (Qfloor q')) (1 # 2))
    with (Qcompare (q' - inject_Z (Qfloor q')) (1 # 2)); [reflexivity |].
  apply Qcompare_comp; [rewrite H |]; reflexivity.
Qed.


(** Rounding stays between any two integers the number lies between. *)
Lemma round_half_even_range (a b : Z) (q : Q) :
  (inject_Z a <= q)%Q -> (q <= inject_Z b)%Q ->
  a <= Py.round_half_even q <= b.
Proof.
  intros Ha Hb.
  assert (Hfa : a <= Qfloor q).
  { rewrite <- (Qfloor_Z a). by apply Qfloor_resp_le. }
  assert (Hfb : Qfloor q <= b).
  { rewrite <- (Qfloor_Z b). by apply Qfloor_resp_le. }
  unfold Py.round_half_even.
  destruct (Qcompare_spec (q - inject_Z (Qfloor q)) (1 # 2)) as [He | Hl | Hg].
  - destruct (Z.even (Qfloor q)); [lia |].
    destruct (Z.eq_dec (Qfloor q) b) as [E | ?]; [| lia].
    rewrite E in He. lra.
  - lia.
  - destruct (Z.eq_dec (Qfloor q) b) as [E | ?]; [| lia].
    rewrite E in Hg. lra.
Qed.


(** ** Present values of a field *)

Lemma valid_nil (field : YearlyObservation -> option Q)
    (obs : list YearlyObservation) :
  valid field obs = [] <-> entirely_absent field obs.
Proof.
  unfold valid, entirely_absent. induction obs as [| d obs IH]; simpl.
  - split; [constructor | reflexivity].
  - destruct (field d) eqn:E; split.
    + discriminate.
    + intros H. apply Forall_cons in H as [H _]. congruence.
    + intros H. apply Forall_cons. split; [done | by apply IH].
    + intros H. apply Forall_cons in H as [_ H]. by apply IH.
Qed.

Lemma is_empty_true {A : Type} (l : list A) : is_empty l = true <-> l = [].
Proof. by destruct l. Qed.

Lemma is_empty_false {A : Type} (l : list A) : is_empty l = false <-> l <> [].
Proof. by destruct l. Qed.

Lemma accepted_valid (obs : list YearlyObservation) :
  accepted obs <-> is_empty (valid temp_avg obs) = false.
Proof.
  unfold accepted, valid. induction obs as [| d obs IH]; simpl.
  - rewrite Exists_nil. split; [tauto | discriminate].
  - rewrite Exists_cons. destruct (temp_avg d) eqn:E; simpl.
    + split; [done | eauto].
    + rewrite <- IH. split; [| tauto].
      intros [[x Hx] | H]; [discriminate | done].
Qed.


(** ** The primitives return on the arguments the analysis gives them *)

Lemma mean_returns (l : list Q) :
  is_empty l = false ->
  Py.mean l
  = Py.Returned (Py.sum l / inject_Z (Z.of_nat (length l)))%Q.
Proof. by destruct l. Qed.

Lemma min_returns (l : list Q) :
  is_empty l = false -> exists x, Py.min l = Py.Returned x.
Proof. destruct l; [done | by eexists]. Qed.

Lemma max_returns (l : list Q) :
  is_empty l = false -> exists x, Py.max l = Py.Returned x.
Proof. destruct l; [done | by eexists]. Qed.

Lemma probability_positive (count total : Z) :
  0 < total ->
  probability count total
  = Py.Returned (Py.round (inject_Z count / inject_Z total * 100)%Q).
Proof.
  intros H. unfold probability, Py.truediv.
  destruct (Z.ltb_spec 0 total); [| lia].
  destruct (Z.eqb_spec total 0); [lia | reflexivity].
Qed.


(** ** The analysis of an accepted set *)

(** A guarded statistic: the default when the list is empty, the rounded
    value of the primitive otherwise; it never raises. *)
Lemma guarded_returns (l : list Q) (prim : list Q -> Py.outcome Q)
    (default : Py.num) :
  (is_empty l = false -> exists x, prim l = Py.Returned x) ->
  exists y,
    (if is_empty l then mret default else Py.round1 <$> prim l)
    = Py.Returned y
    /\ (if is_empty l then y = default
        else Py.round1 <$> prim l = Py.Returned y).
Proof.
  intros H. destruct (is_empty l).
  - by exists default.
  - destruct H as [x Hx]; [done |]. exists (Py.round1 x).
    by rewrite Hx.
Qed.

Lemma mean_returns_some (l : list Q) :
  is_empty l = false -> exists x, Py.mean l = Py.Returned x.
Proof. intros H. rewrite (mean_returns l H). by eexists. Qed.

Lemma analysis_locals_accepted (obs : list YearlyObservation) :
  is_empty (valid temp_avg obs) = false ->
  exists v, analysis_locals obs = Py.Returned (Some v) /\ Aggregated obs v.
Proof.
  intros Hacc. unfold analysis_locals.
  assert (Hlen : 0 < Z.of_nat (length obs)).
  { destruct obs; [discriminate | simpl; lia]. }
  assert (is_empty obs = false) as -> by (by destruct obs).
  rewrite Hacc.
  rewrite (mean_returns _ Hacc). cbn [fmap Py.outcome_fmap mbind Py.outcome_bind].
  destruct (guarded_returns (valid temp_min obs) Py.min
              (Py.round1 (Py.sum (valid temp_avg obs)
                 / inject_Z (Z.of_nat (length (valid temp_avg obs)))))
              (min_returns _)) as (tn & -> & Htn).
  cbn [mbind Py.outcome_bind].
  destruct (guarded_returns (valid temp_max obs) Py.max
              (Py.round1 (Py.sum (valid temp_avg obs)
                 / inject_Z (Z.of_nat (length (valid temp_avg obs)))))
              (max_returns _)) as (tx & -> & Htx).
  cbn [mbind Py.outcome_bind].
  destruct (guarded_returns (valid wind_avg obs) Py.mean (Py.Int 0)
              (mean_returns_some _)) as (wa & -> & Hwa).
  cbn [mbind Py.outcome_bind].
  destruct (guarded_returns (valid wind_max obs) Py.max (Py.Int 0)
              (max_returns _)) as (wx & -> & Hwx).
  cbn [mbind Py.outcome_bind].
  destruct (guarded_returns (valid precip obs) Py.mean (Py.Int 0)
              (mean_returns_some _)) as (ra & -> & Hra).
  cbn [mbind Py.outcome_bind].
  destruct (guarded_returns (valid precip obs) Py.max (Py.Int 0)
              (max_returns _)) as (rx & -> & Hrx).
  cbn [mbind Py.outcome_bind].
  rewrite !(probability_positive _ _ Hlen).
  cbn [mbind Py.outcome_bind mret Py.outcome_ret].
  eexists. split; [reflexivity |].
  split; cbn [avg_temp min_temp max_temp avg_wind max_wind avg_rain max_rain
              main_prediction total_days probs very_hot very_cold very_windy
              very_wet]; try done.
  - by rewrite (mean_returns _ Hacc).
  - by apply probability_positive.
  - by apply probability_positive.
  - by apply probability_positive.
  - by apply probability_positive.
Qed.

Lemma analysis_locals_rejected (obs : list YearlyObservation) :
  is_empty (valid temp_avg obs) = true ->
  analysis_locals obs = Py.Returned None.
Proof.
  intros H. unfold analysis_locals.
  destruct (is_empty obs); [reflexivity |]. by rewrite H.
Qed.

Lemma analysis_locals_inv (obs : list YearlyObservation) (v : Locals) :
  analysis_locals obs = Py.Returned (Some v) ->
  accepted obs /\ Aggregated obs v.
Proof.
  intros H. destruct (is_empty (valid temp_avg obs)) eqn:E.
  - rewrite (analysis_locals_rejected obs E) in H. discriminate.
  - destruct (analysis_locals_accepted obs E) as (v' & Hv' & Hagg).
    rewrite Hv' in H. injection H as <-.
    split; [by apply accepted_valid | exact Hagg].
Qed.

Lemma analyze_weather_data_inv (obs : list YearlyObservation)
    (r : AnalysisResult) :
  analyze_weather_data obs = Py.Returned (Some r) ->
  exists v, analysis_locals obs = Py.Returned (Some v) /\ r = results_of v.
Proof.
  unfold analyze_weather_data.
  destruct (analysis_locals obs) as [e | [v |]]; try discriminate.
  intros [= <-]. by exists v.
Qed.

Lemma analyze_weather_data_accepted (obs : list YearlyObservation) :
  accepted obs ->
  exists v, analysis_locals obs = Py.Returned (Some v)
            /\ analyze_weather_data obs = Py.Returned (Some (results_of v))
            /\ Aggregated obs v.
Proof.
  intros H. apply accepted_valid in H.
  destruct (analysis_locals_accepted obs H) as (v & Hv & Hagg).
  exists v. unfold analyze_weather_data. by rewrite Hv.
Qed.

(** ** No result *)


(** ** Defaults of the secondary groups *)

(** C3, as amended: on an accepted observation set the analysis returns,
    and a wind average, wind maximum or precipitation group that no entry
    has leaves its statistic at the integer 0, shown as "0"; a missing
    minimum or maximum temperature group leaves its statistic at the
    rounded average temperature. *)
Theorem secondary_group_defaults :
  forall obs : list YearlyObservation,
    accepted obs ->
    exists v,
      analysis_locals obs = Py.Returned (Some v)
      /\ analyze_weather_data obs = Py.Returned (Some (results_of v))
      /\ (entirely_absent wind_avg obs -> avg_wind v = Py.Int 0)
      /\ (entirely_absent wind_max obs -> max_wind v = Py.Int 0)
      /\ (entirely_absent precip obs ->
            avg_rain v = Py.Int 0 /\ max_rain v = Py.Int 0
            /\ r_rain_info (results_of v) = "0 mm (max: 0 mm)")
      /\ (entirely_absent wind_avg obs -> entirely_absent wind_max obs ->
            r_wind_info (results_of v) = "0 m/s (max: 0 m/s)")
      /\ (entirely_absent temp_min obs -> min_temp v = avg_temp v)
      /\ (entirely_absent temp_max obs -> max_temp v = avg_temp v).
Proof.
  intros obs Hacc.
  destruct (analyze_weather_data_accepted obs Hacc) as (v & Hv & Hout & Hagg).
  exists v.
  pose proof (agg_avg_wind _ _ Hagg) as Hwa.
  pose proof (agg_max_wind _ _ Hagg) as Hwx.
  pose proof (agg_avg_rain _ _ Hagg) as Hra.
  pose proof (agg_max_rain _ _ Hagg) as Hrx.
  pose proof (agg_min_temp _ _ Hagg) as Htn.
  pose proof (agg_max_temp _ _ Hagg) as Htx.
  split_and!; try done.
  - intros H%valid_nil. by rewrite H in Hwa.
  - intros H%valid_nil. by rewrite H in Hwx.
  - intros H%valid_nil. rewrite H in Hra, Hrx. simpl in Hra, Hrx.
    unfold results_of; cbn [r_rain_info]. by rewrite Hra, Hrx.
  - intros H1%valid_nil H2%valid_nil. rewrite H1 in Hwa. rewrite H2 in Hwx.
    simpl in Hwa, Hwx.
    unfold results_of; cbn [r_wind_info]. by rewrite Hwa, Hwx.
  - intros H%valid_nil. by rewrite H in Htn.
  - intros H%valid_nil. by rewrite H in Htx.
Qed.

Lemma secondary_group_defaults_witness :
  accepted only_temperature /\
  exists v,
    analysis_locals only_temperature = Py.Returned (Some v)
    /\ analyze_weather_data only_temperature
       = Py.Returned (Some (results_of v))
    /\ (entirely_absent wind_avg only_temperature -> avg_wind v = Py.Int 0)
    /\ (entirely_absent wind_max only_temperature -> max_wind v = Py.Int 0)
    /\ (entirely_absent precip only_temperature ->
          avg_rain v = Py.Int 0 /\ max_rain v = Py.Int 0
          /\ r_rain_info (results_of v) = "0 mm (max: 0 mm)")
    /\ (entirely_absent wind_avg only_temperature ->
        entirely_absent wind_max only_temperature ->
          r_wind_info (results_of v) = "0 m/s (max: 0 m/s)")
    /\ (entirely_absent temp_min only_temperature -> min_temp v = avg_temp v)
    /\ (entirely_absent temp_max only_temperature -> max_temp v = avg_temp v).
Proof.
  assert (H : accepted only_temperature).
  { apply Exists_cons_hd. by eexists. }
  split; [exact H |].
  apply (secondary_group_defaults only_temperature H).
Defined.

(** C3, as stated, fails for the temperature extremes: with one year that
    has a temperature average of 20 and nothing else, the minimum and
    maximum temperature groups are entirely absent and their statistics are
    20.0, not zero. *)
Lemma temperature_extremes_do_not_default_to_zero :
  exists v,
    analysis_locals only_temperature = Py.Returned (Some v)
    /\ entirely_absent temp_min only_temperature
    /\ entirely_absent temp_max only_temperature
    /\ min_temp v = Py.Float1 false 200
    /\ max_temp v = Py.Float1 false 200
    /\ ~ (Py.value (min_temp v) == 0)%Q
    /\ ~ (Py.value (max_temp v) == 0)%Q
    /\ r_temp_range (results_of v) = "20.0°C - 20.0°C".
Proof.
  eexists. split; [vm_compute; reflexivity |].
  repeat split; try (by repeat constructor); by vm_compute.
Qed.

(** ** Extreme-event probabilities *)

Lemma fold_add_ones {A : Type} (l : list A) (a : Z) :
  fold_left Z.add (map (fun _ => 1) l) a = a + Z.of_nat (length l).
Proof.
  revert a. induction l as [| x l IH]; intros a; simpl.
  - lia.
  - rewrite IH. lia.
Qed.

Lemma count_if_length (p : Q -> bool) (l : list Q) :
  Py.count_if p l = Z.of_nat (length (List.filter p l)).
Proof. unfold Py.count_if. by rewrite fold_add_ones. Qed.

(** Counting in the list of present values counts the records whose
    field is present and crosses the threshold. *)
Lemma count_if_crossing (field : YearlyObservation -> option Q)
    (p : Q -> bool) (obs : list YearlyObservation) :
  Py.count_if p (valid field obs) = crossing field p obs.
Proof.
  rewrite count_if_length. unfold crossing, valid. f_equal.
  induction obs as [| d obs IH]; [reflexivity |].
  cbn [omap list_omap List.filter]. destruct (field d) as [x |]; [| exact IH].
  cbn [List.filter]. destruct (p x); simpl; by rewrite IH.
Qed.

Lemma crossing_bounds (field : YearlyObservation -> option Q)
    (p : Q -> bool) (obs : list YearlyObservation) :
  0 <= crossing field p obs <= Z.of_nat (length obs).
Proof.
  unfold crossing. split; [lia |].
  apply inj_le. induction obs as [| d obs IH]; simpl; [lia |].
  destruct (match field d with Some x => p x | None => false end); simpl; lia.
Qed.

Lemma crossing_absent (field : YearlyObservation -> option Q)
    (p : Q -> bool) (obs : list YearlyObservation) :
  entirely_absent field obs -> crossing field p obs = 0.
Proof.
  intros H. rewrite <- count_if_crossing.
  apply valid_nil in H. by rewrite H.
Qed.

Lemma percentage_exact (c n : Z) :
  0 < n ->
  (inject_Z c / inject_Z n * 100 * inject_Z n == 100 * inject_Z c)%Q.
Proof.
  intros H. field. intros E.
  apply (inject_Z_injective n 0) in E. lia.
Qed.

Lemma inject_Z_positive (n : Z) : 0 < n -> (0 < inject_Z n)%Q.
Proof. intros H. by rewrite (Zlt_Qlt 0 n) in H. Qed.

Lemma inject_Z_nonnegative (n : Z) : 0 <= n -> (0 <= inject_Z n)%Q.
Proof. intros H. by rewrite (Zle_Qle 0 n) in H. Qed.


Lemma round_percentage_range (c n : Z) :
  0 < n -> 0 <= c <= n ->
  0 <= Py.round (inject_Z c / inject_Z n * 100)%Q <= 100.
Proof.
  intros Hn [Hc0 Hcn]. unfold Py.round.
  set (q := (inject_Z c / inject_Z n * 100)%Q).
  pose proof (percentage_exact c n Hn) as Hq. fold q in Hq.
  pose proof (inject_Z_positive n Hn) as HN.
  pose proof (inject_Z_nonnegative c Hc0) as HC0.
  assert (HCN : (inject_Z c <= inject_Z n)%Q) by (by rewrite <- Zle_Qle).
  apply round_half_even_range.
  - change (inject_Z 0) with 0%Q.
    destruct (Qlt_le_dec q 0) as [Hneg |]; [| done]. nra.
  - change (inject_Z 100) with 100%Q.
    destruct (Qlt_le_dec 100 q) as [Hbig |]; [| done]. nra.
Qed.

Lemma round_percentage_zero (n : Z) :
  Py.round (inject_Z 0 / inject_Z n * 100)%Q = 0.
Proof.
  unfold Py.round. rewrite (round_half_even_comp _ 0%Q); [reflexivity |].
  change (inject_Z 0) with 0%Q. unfold Qdiv. by rewrite !Qmult_0_l.
Qed.

(** The probabilities of a result, from the records of the set. *)
Lemma probabilities_of_result (obs : list YearlyObservation)
    (r : AnalysisResult) :
  analyze_weather_data obs = Py.Returned (Some r) ->
  let total := Z.of_nat (length obs) in
  let percent c := Py.round (inject_Z c / inject_Z total * 100)%Q in
  0 < total
  /\ very_hot (r_probabilities r)
     = percent (crossing temp_max (fun t => Py.gt t 30) obs)
  /\ very_cold (r_probabilities r)
     = percent (crossing temp_min (fun t => Py.lt t 10) obs)
  /\ very_windy (r_probabilities r)
     = percent (crossing wind_max (fun w => Py.gt w 10) obs)
  /\ very_wet (r_probabilities r)
     = percent (crossing precip (fun x => Py.gt x 10) obs).
Proof.
  intros Hr total percent.
  destruct (analyze_weather_data_inv obs r Hr) as (v & Hv & ->).
  destruct (analysis_locals_inv obs v Hv) as [Hacc Hagg].
  assert (Hpos : 0 < total).
  { subst total. destruct Hacc; simpl; lia. }
  pose proof (agg_very_hot _ _ Hagg) as Hh.
  pose proof (agg_very_cold _ _ Hagg) as Hc.
  pose proof (agg_very_windy _ _ Hagg) as Hw.
  pose proof (agg_very_wet _ _ Hagg) as Hp.
  rewrite count_if_crossing, (probability_positive _ _ Hpos) in Hh.
  rewrite count_if_crossing, (probability_positive _ _ Hpos) in Hc.
  rewrite count_if_crossing, (probability_positive _ _ Hpos) in Hw.
  rewrite count_if_crossing, (probability_positive _ _ Hpos) in Hp.
  injection Hh as Hh. injection Hc as Hc.
  injection Hw as Hw. injection Hp as Hp.
  cbn [results_of r_probabilities]. by split_and!.
Qed.



(** C5: in the result of an accepted observation set each of the four
    probabilities is an integer from 0 to 100, and the probability of a
    field that no entry has is 0. *)
Theorem extreme_probabilities_range :
  forall (obs : list YearlyObservation) (r : AnalysisResult),
    analyze_weather_data obs = Py.Returned (Some r) ->
    (0 <= very_hot (r_probabilities r) <= 100
     /\ 0 <= very_cold (r_probabilities r) <= 100
     /\ 0 <= very_windy (r_probabilities r) <= 100
     /\ 0 <= very_wet (r_probabilities r) <= 100)
    /\ (entirely_absent temp_max obs -> very_hot (r_probabilities r) = 0)
    /\ (entirely_absent temp_min obs -> very_cold (r_probabilities r) = 0)
    /\ (entirely_absent wind_max obs -> very_windy (r_probabilities r) = 0)
    /\ (entirely_absent precip obs -> very_wet (r_probabilities r) = 0).
Proof.
  intros obs r Hr.
  destruct (probabilities_of_result obs r Hr) as (Hpos & -> & -> & -> & ->).
  split_and!;
    try (apply round_percentage_range; [done | apply crossing_bounds]);
    intros Habs; rewrite (crossing_absent _ _ _ Habs);
    apply round_percentage_zero.
Qed.

Lemma extreme_probabilities_range_witness :
  exists r,
    analyze_weather_data one_hot_of_two = Py.Returned (Some r)
    /\ 0 <= very_hot (r_probabilities r) <= 100
    /\ very_windy (r_probabilities r) = 0.
Proof.
  eexists. split; [vm_compute; reflexivity |].
  destruct (extreme_probabilities_range one_hot_of_two _
              ltac:(vm_compute; reflexivity))
    as ((Hhot & _) & _ & _ & Hwindy & _).
  split; [exact Hhot |].
  apply Hwindy. by repeat constructor.
Defined.

(** ** Per-field validity *)






(** ** Scenario A *)

(** C7: on the three years of scenario A the analysis returns an average
    temperature of 22.0, the range "15.0°C - 27.0°C", the prediction
    "Pleasant", and 0 for the very-hot and very-cold probabilities. *)
Theorem scenario_A_result :
  exists r,
    analyze_weather_data scenario_A = Py.Returned (Some r)
    /\ r_avg_temp r = Py.Float1 false 220
    /\ Py.str (r_avg_temp r) = "22.0"
    /\ r_temp_range r = "15.0°C - 27.0°C"
    /\ r_main_prediction r = "Pleasant"
    /\ very_hot (r_probabilities r) = 0
    /\ very_cold (r_probabilities r) = 0.
Proof. eexists. split_and!; by vm_compute. Qed.

(** ** The confidence note *)

(** C8, as amended: the confidence note of a result gives the number of
    entries of the observation set, whatever fields they have. *)
Theorem confidence_counts_all_entries :
  forall (obs : list YearlyObservation) (r : AnalysisResult),
    analyze_weather_data obs = Py.Returned (Some r) ->
    r_confidence r
    = Py.str_int (Z.of_nat (length obs)) ++ " years of NASA data".
Proof.
  intros obs r Hr.
  destruct (analyze_weather_data_inv obs r Hr) as (v & Hv & ->).
  destruct (analysis_locals_inv obs v Hv) as [_ Hagg].
  cbn [results_of r_confidence]. by rewrite (agg_total_days _ _ Hagg).
Qed.

Lemma confidence_counts_all_entries_witness :
  exists r,
    analyze_weather_data with_empty_year = Py.Returned (Some r)
    /\ r_confidence r
       = Py.str_int (Z.of_nat (length with_empty_year))
         ++ " years of NASA data".
Proof.
  eexists. split; [vm_compute; reflexivity |].
  apply (confidence_counts_all_entries with_empty_year).
  vm_compute; reflexivity.
Defined.

(** C8, as stated, fails: of a complete year followed by a year without any
    field, one year only has data to contribute, and the note says 2. *)
Lemma confidence_counts_years_without_data :
  exists r,
    analyze_weather_data with_empty_year = Py.Returned (Some r)
    /\ years_with_data with_empty_year = 1
    /\ r_confidence r = "2 years of NASA data"
    /\ r_confidence r
       <> Py.str_int (years_with_data with_empty_year)
          ++ " years of NASA data".
Proof. eexists. split_and!; by vm_compute. Qed.

(** ** Determinism *)

















(** ** The observation set builder *)


Lemma collect_years (params_data : gmap string (gmap string (option Q)))
    (month day : Z) (years : list Z) (all_data : list YearlyObservation) :
  fold_left (collect_year params_data month day) years all_data
  = (all_data
     ++ ((fun y => year_entry params_data y (date_string y month day))
         <$> List.filter (has_temperature params_data month day) years))%list.
Proof.
  revert all_data. induction years as [| y years IH]; intros all_data.
  - simpl. by rewrite app_nil_r.
  - cbn [fold_left List.filter]. rewrite IH.
    unfold collect_year, has_temperature.
    destruct (bool_decide _); [| reflexivity].
    by rewrite <- app_assoc.
Qed.

Lemma seqZ_sorted (m n : Z) : StronglySorted Z.lt (seqZ m n).
Proof.
  remember (Z.to_nat n) as k eqn:Hk. revert m n Hk.
  induction k as [| k IH]; intros m n Hk.
  - rewrite seqZ_nil by lia. constructor.
  - rewrite seqZ_cons by lia. constructor.
    + apply IH. lia.
    + apply Forall_seqZ. intros; lia.
Qed.

Lemma filter_sorted {A : Type} (R : A -> A -> Prop) (p : A -> bool)
    (l : list A) :
  StronglySorted R l -> StronglySorted R (List.filter p l).
Proof.
  induction 1 as [| x l Hl IH Hx]; simpl; [constructor |].
  destruct (p x); [| exact IH]. constructor; [exact IH |].
  apply List.Forall_forall. intros y [Hy _]%List.filter_In.
  rewrite List.Forall_forall in Hx. by apply Hx.
Qed.

Lemma years_of_entries (params_data : gmap string (gmap string (option Q)))
    (month day : Z) (years : list Z) :
  map year ((fun y => year_entry params_data y (date_string y month day))
            <$> years) = years.
Proof.
  induction years as [| y years IH]; simpl; [reflexivity |].
  f_equal. exact IH.
Qed.

(** C10: when the reply is well formed, the builder's output has a year if
    and only if the year is one of those requested and the temperature
    series of the reply has that year's date string; the years come in
    ascending order; and a year without an entry in the temperature series
    is in no entry, whatever the other series hold for it. *)
Theorem builder_keeps_years_with_temperature :
  forall (response : Response)
         (params_data : gmap string (gmap string (option Q)))
         (current_year month day years : Z),
    status_code response = 200 ->
    parameter response = Some params_data ->
    let obs :=
      get_historical_weather_nasa response current_year month day years in
    let T2M := default ∅ (params_data !! "T2M") in
    (forall y : Z,
       In y (map year obs)
       <-> current_year - years <= y <= current_year - 1
           /\ is_Some (T2M !! date_string y month day))
    /\ StronglySorted Z.lt (map year obs)
    /\ (forall y : Z,
          T2M !! date_string y month day = None ->
          forall d, In d obs -> year d <> y)
    /\ (forall d, In d obs ->
          d = year_entry params_data (year d)
                (date_string (year d) month day)).
Proof.
  intros response params_data current_year month day years Hstatus Hparam
    obs T2M.
  assert (Hobs : obs
    = (fun y => year_entry params_data y (date_string y month day))
      <$> List.filter (has_temperature params_data month day)
            (Py.range (current_year - years) (current_year - 1 + 1))).
  { subst obs. unfold get_historical_weather_nasa.
    rewrite Hstatus, Hparam. simpl negb. cbv iota.
    by rewrite collect_years. }
  assert (Hyears : forall y : Z,
    In y (map year obs)
    <-> current_year - years <= y <= current_year - 1
        /\ is_Some (T2M !! date_string y month day)).
  { intros y. rewrite Hobs, years_of_entries, List.filter_In.
    unfold has_temperature, Py.range.
    rewrite bool_decide_eq_true, <- list_elem_of_In, elem_of_seqZ.
    fold T2M. split; intros [H1 H2]; (split; [lia | done]). }
  split_and!.
  - exact Hyears.
  - rewrite Hobs, years_of_entries. apply filter_sorted, seqZ_sorted.
  - intros y Hnone d Hd <-.
    assert (Hin : In (year d) (map year obs)) by (by apply in_map).
    apply Hyears in Hin as [_ [x Hx]]. congruence.
  - intros d Hd. rewrite Hobs in Hd.
    apply list_elem_of_In, list_elem_of_fmap in Hd as (y & -> & _).
    reflexivity.
Qed.

Lemma builder_keeps_years_with_temperature_witness :
  map year (get_historical_weather_nasa sample_response 2024 7 15 3)
  = [2021; 2023]
  /\ (In 2022 (map year (get_historical_weather_nasa sample_response
                           2024 7 15 3))
      <-> 2024 - 3 <= 2022 <= 2024 - 1
          /\ is_Some ((default ∅ (default ∅ (parameter sample_response)
                                    !! "T2M"))
                      !! date_string 2022 7 15))
  /\ get_value (default ∅ (parameter sample_response))
        "PRECTOTCORR" (date_string 2022 7 15) = Some (12 # 1)%Q.
Proof.
  split; [by vm_compute |]. split; [| by vm_compute].
  apply (builder_keeps_years_with_temperature sample_response
           (default ∅ (parameter sample_response)) 2024 7 15 3);
    reflexivity.
Defined.

(** * Further properties of the code *)

(** ** Occurrence in a string *)

Lemma append_cons (c : Ascii.ascii) (s t : string) :
  String c s ++ t = String c (s ++ t).
Proof. reflexivity. Qed.

Lemma append_empty (s : string) : "" ++ s = s.
Proof. reflexivity. Qed.

Lemma prefix_app (a b : string) :
  String.prefix a b = true <-> exists after, b = a ++ after.
Proof.
  revert b. induction a as [| c a IH]; intros b; simpl.
  - destruct b; (split; [intros _; by eexists | done]).
  - destruct b as [| c' b]; simpl.
    + split; [done | by intros [after H]].
    + setoid_rewrite append_cons.
      destruct (Ascii.ascii_dec c c') as [-> | Hne].
      * rewrite IH. split; intros [after H]; exists after; congruence.
      * split; [done |]. intros [after H]. congruence.
Qed.

Lemma is_in_occurs_in (a b : string) : is_in a b = true <-> occurs_in a b.
Proof.
  unfold occurs_in. induction b as [| c b IH]; cbn [is_in].
  - rewrite orb_false_r, prefix_app. split.
    + intros [after H]. by exists "", after.
    + intros (before & after & H). destruct before as [| c before].
      * by exists after.
      * by rewrite append_cons in H.
  - rewrite orb_true_iff, prefix_app, IH. split.
    + intros [[after H] | (before & after & H)].
      * by exists "", after.
      * exists (String c before), after. by rewrite append_cons, H.
    + intros (before & after & H). destruct before as [| c' before].
      * left. by exists after.
      * right. exists before, after. rewrite append_cons in H. congruence.
Qed.

(** ** The location resolver *)

(** The first element a search finds, and what lies before it. *)
Lemma find_first {A : Type} (p : A -> bool) (l : list A) (x : A) :
  List.find p l = Some x
  <-> exists before after,
        l = (before ++ x :: after)%list /\ p x = true
        /\ Forall (fun y => p y = false) before.
Proof.
  induction l as [| y l IH]; simpl.
  - split; [done |]. intros (before & after & H & _). by destruct before.
  - destruct (p y) eqn:Hy.
    + split.
      * intros [= ->]. by exists [], l.
      * intros (before & after & H & Hx & Hb).
        destruct before as [| z before]; simplify_eq/=; [done |].
        apply Forall_cons in Hb as [Hz _]. congruence.
    + rewrite IH. split.
      * intros (before & after & -> & Hx & Hb).
        exists (y :: before), after. split_and!; [done | done |].
        by apply Forall_cons.
      * intros (before & after & H & Hx & Hb).
        destruct before as [| z before]; simplify_eq/=; [congruence |].
        apply Forall_cons in Hb as [_ Hb]. by exists before, after.
Qed.

Lemma find_none {A : Type} (p : A -> bool) (l : list A) :
  List.find p l = None <-> Forall (fun y => p y = false) l.
Proof.
  induction l as [| y l IH]; simpl.
  - split; [constructor | done].
  - rewrite Forall_cons. destruct (p y).
    + split; [done | by intros [? _]].
    + rewrite IH. split; [by split | by intros [_ ?]].
Qed.

Lemma dict_get_missing {A : Type} (key : string) (d : list (string * A)) :
  ~ In key (map fst d) -> dict_get key d = None.
Proof.
  intros H. unfold dict_get.
  destruct (List.find _ d) as [[k x] |] eqn:E; [| reflexivity].
  apply List.find_some in E as [Hin Hk].
  apply bool_decide_eq_true in Hk. simpl in Hk. subst k.
  destruct H. by apply (in_map fst) in Hin.
Qed.

Lemma alike_decided (city location_lower : string) :
  is_in city location_lower || is_in location_lower city = true
  <-> alike city location_lower.
Proof. unfold alike. by rewrite orb_true_iff, !is_in_occurs_in. Qed.

Lemma not_alike_decided (city location_lower : string) :
  is_in city location_lower || is_in location_lower city = false
  <-> ~ alike city location_lower.
Proof. rewrite <- alike_decided. by destruct (_ || _). Qed.

(** X1: a location that is the name of a fallback city is answered with
    the entry of that city, whatever became of the request. *)
Theorem get_coordinates_fallback_city :
  forall (city : string) (coords : Coordinates) (reply : GeocoderReply),
    In (city, coords) fallback_cities ->
    get_coordinates city reply = Some coords.
Proof.
  intros city coords reply H. unfold fallback_cities in H. simpl in H.
  repeat (destruct H as [[= <- <-] | H]; [reflexivity |]). done.
Qed.

Lemma get_coordinates_fallback_city_witness :
  get_coordinates "nairobi" Failure
  = Some {| lat := (- 12864 # 10000)%Q; lon := (368172 # 10000)%Q;
            display_name := "Nairobi, Kenya" |}.
Proof.
  apply get_coordinates_fallback_city.
  unfold fallback_cities. simpl. tauto.
Defined.

(** X2: when the request times out or finds nothing, a location that is
    no city name is answered with the first fallback city, in the order of
    the table, whose name occurs in the location or in which the location
    occurs; there is no answer exactly when no city is like that. *)
Theorem get_coordinates_fuzzy_match :
  forall (location_lower : string) (reply : GeocoderReply),
    ~ In location_lower (map fst fallback_cities) ->
    reply = Timeout \/ reply = Data [] ->
    (forall coords : Coordinates,
       get_coordinates location_lower reply = Some coords
       <-> exists before city after,
             fallback_cities = (before ++ (city, coords) :: after)%list
             /\ alike city location_lower
             /\ Forall (fun item => ~ alike item.1 location_lower) before)
    /\ (get_coordinates location_lower reply = None
        <-> Forall (fun item => ~ alike item.1 location_lower)
              fallback_cities).
Proof.
  intros loc reply Hkey Hreply.
  assert (E : get_coordinates loc reply = fuzzy_match loc).
  { unfold get_coordinates. rewrite (dict_get_missing _ _ Hkey).
    by destruct Hreply as [-> | ->]. }
  rewrite E. unfold fuzzy_match. split.
  - intros coords. split.
    + destruct (List.find _ fallback_cities) as [[city c] |] eqn:F;
        [| done].
      intros [= <-]. apply find_first in F as (before & after & H & Hc & Hb).
      exists before, city, after. split_and!; [done | by apply alike_decided |].
      eapply Forall_impl; [exact Hb |]. intros item. apply not_alike_decided.
    + intros (before & city & after & H & Hc & Hb).
      assert (F : List.find
                (fun item => is_in item.1 loc || is_in loc item.1)
                fallback_cities = Some (city, coords)).
      { apply find_first. exists before, after.
        split_and!; [done | by apply alike_decided |].
        eapply Forall_impl; [exact Hb |].
        intros item. apply not_alike_decided. }
      by rewrite F.
  - destruct (List.find _ fallback_cities) as [item |] eqn:F.
    + split; [done |]. intros Hall.
      apply List.find_some in F as [Hin Hitem].
      rewrite Forall_forall in Hall. apply list_elem_of_In in Hin.
      apply alike_decided in Hitem. by destruct (Hall item Hin).
    + split; [| done]. intros _. apply find_none in F.
      eapply Forall_impl; [exact F |]. intros item. apply not_alike_decided.
Qed.

Lemma get_coordinates_fuzzy_match_witness :
  get_coordinates "paris, france" (Data [])
  = Some {| lat := (488566 # 10000)%Q; lon := (23522 # 10000)%Q;
            display_name := "Paris, France" |}.
Proof.
  apply (get_coordinates_fuzzy_match "paris, france" (Data [])).
  - simpl. intros H. repeat (destruct H as [[=] | H]). done.
  - by right.
  - exists [("douala", {| lat := (40511 # 10000)%Q; lon := (97679 # 10000)%Q;
                          display_name := "Douala, Cameroon" |});
            ("yaounde", {| lat := (38480 # 10000)%Q;
                           lon := (115021 # 10000)%Q;
                           display_name := "Yaoundé, Cameroon" |})],
      "paris", (drop 3 fallback_cities).
    split_and!.
    + reflexivity.
    + apply alike_decided. reflexivity.
    + repeat constructor; by apply not_alike_decided.
Defined.

(** X3: the resolver makes up no place: an answer is an entry of the
    fallback table or the first element of the service's list; and when the
    request fails other than by a timeout, only a location that is itself a
    city name of the table has an answer. *)
Theorem get_coordinates_provenance :
  forall (location_lower : string) (reply : GeocoderReply)
         (coords : Coordinates),
    (get_coordinates location_lower reply = Some coords ->
       (exists city, In (city, coords) fallback_cities)
       \/ (exists rest, reply = Data (Some coords :: rest)))
    /\ (get_coordinates location_lower Failure = Some coords
        <-> In (location_lower, coords) fallback_cities).
Proof.
  intros loc reply coords.
  assert (Hget : forall c, dict_get loc fallback_cities = Some c
                           <-> In (loc, c) fallback_cities).
  { intros c. split.
    - unfold dict_get.
      destruct (List.find _ fallback_cities) as [[k x] |] eqn:F; [| done].
      intros [= <-]. apply List.find_some in F as [Hin Hk].
      apply bool_decide_eq_true in Hk. simpl in Hk. by subst k.
    - intros H. unfold fallback_cities in H. simpl in H.
      repeat (destruct H as [[= <- <-] | H]; [reflexivity |]). done. }
  split.
  - unfold get_coordinates.
    destruct (dict_get loc fallback_cities) as [c |] eqn:G.
    + intros [= <-]. left. exists loc. by apply Hget.
    + assert (Hfuzzy : fuzzy_match loc = Some coords ->
                       exists city, In (city, coords) fallback_cities).
      { unfold fuzzy_match.
        destruct (List.find _ fallback_cities) as [[k x] |] eqn:F; [| done].
        intros [= <-]. apply List.find_some in F as [Hin _]. by exists k. }
      destruct reply as [| | [| [found |] rest]]; try done.
      * intros H. left. by apply Hfuzzy.
      * intros H. left. by apply Hfuzzy.
      * intros [= <-]. right. by exists rest.
  - rewrite <- Hget. unfold get_coordinates.
    by destruct (dict_get loc fallback_cities).
Qed.

(** X4: when the request times out or finds nothing, every location that
    occurs in "douala" (the empty location and any single letter of the
    name among them) is answered with Douala, the first city of the
    table. *)
Theorem get_coordinates_short_location_is_douala :
  forall (location_lower : string) (reply : GeocoderReply),
    reply = Timeout \/ reply = Data [] ->
    occurs_in location_lower "douala" ->
    get_coordinates location_lower reply
    = Some {| lat := (40511 # 10000)%Q; lon := (97679 # 10000)%Q;
              display_name := "Douala, Cameroon" |}.
Proof.
  intros loc reply Hreply Hocc. apply is_in_occurs_in in Hocc.
  unfold get_coordinates.
  destruct (dict_get loc fallback_cities) as [c |] eqn:G.
  - unfold dict_get in G.
    destruct (List.find _ fallback_cities) as [[k x] |] eqn:F; [| done].
    injection G as <-. apply List.find_some in F as [Hin Hk].
    apply bool_decide_eq_true in Hk. simpl in Hk. subst k.
    unfold fallback_cities in Hin. simpl in Hin.
    destruct Hin as [[= <- <-] | Hin]; [reflexivity |].
    repeat (destruct Hin as [[= <- <-] | Hin]; [by vm_compute in Hocc |]).
    done.
  - assert (F : fuzzy_match loc
                = Some {| lat := (40511 # 10000)%Q; lon := (97679 # 10000)%Q;
                          display_name := "Douala, Cameroon" |}).
    { unfold fuzzy_match, fallback_cities. cbn [List.find fst].
      by rewrite Hocc, orb_true_r. }
    by destruct Hreply as [-> | ->].
Qed.

Lemma get_coordinates_short_location_is_douala_witness :
  get_coordinates "" Timeout
  = Some {| lat := (40511 # 10000)%Q; lon := (97679 # 10000)%Q;
            display_name := "Douala, Cameroon" |}.
Proof.
  apply get_coordinates_short_location_is_douala.
  - by left.
  - by exists "", "douala".
Defined.

(** ** Date strings *)

Lemma length_append (s t : string) :
  String.length (s ++ t) = (String.length s + String.length t)%nat.
Proof.
  induction s as [| c s IH]; [reflexivity |].
  rewrite append_cons. simpl. by rewrite IH.
Qed.

Lemma append_inv_tail (s1 s2 t : string) : s1 ++ t = s2 ++ t -> s1 = s2.
Proof.
  revert s2. induction s1 as [| c s1 IH]; intros [| c' s2] H.
  - reflexivity.
  - apply (f_equal String.length) in H.
    rewrite append_cons, append_empty in H. simpl in H.
    rewrite length_append in H. lia.
  - apply (f_equal String.length) in H.
    rewrite append_cons, append_empty in H. simpl in H.
    rewrite length_append in H. lia.
  - rewrite !append_cons in H. injection H as -> H. f_equal. by apply IH.
Qed.

Lemma to_int_not_nil (z : Z) :
  Z.to_int z <> Decimal.Pos Decimal.Nil /\ Z.to_int z <> Decimal.Neg Decimal.Nil.
Proof.
  destruct z as [| p | p]; simpl; split; try done;
    intros [= H]; by apply DecimalPos.Unsigned.to_uint_nonnil in H.
Qed.

Lemma str_int_inj (z z' : Z) : Py.str_int z = Py.str_int z' -> z = z'.
Proof.
  unfold Py.str_int. intros H.
  apply (f_equal NilZero.int_of_string) in H.
  destruct (to_int_not_nil z) as [Hp Hn].
  destruct (to_int_not_nil z') as [Hp' Hn'].
  rewrite !NilZero.isi in H by done.
  injection H as H. by apply DecimalZ.to_int_inj.
Qed.

Lemma date_string_inj (y y' month day : Z) :
  date_string y month day = date_string y' month day -> y = y'.
Proof.
  unfold date_string. intros H.
  apply append_inv_tail in H. by apply str_int_inj.
Qed.

(** X5: for a year of four digits, a month from 1 to 12 and a day from 1
    to 31, the date string has eight characters: the days and months below
    10 are padded with a zero. *)
Theorem date_string_eight_characters :
  forall year month day : Z,
    1000 <= year <= 9999 -> 1 <= month <= 12 -> 1 <= day <= 31 ->
    String.length (date_string year month day) = 8%nat.
Proof.
  intros y m d Hy Hm Hd. unfold date_string.
  assert (Hyears : Forall (fun y => String.length (Py.str_int y) = 4%nat)
                     (seqZ 1000 9000)).
  { apply (bool_decide_unpack _). vm_compute. exact I. }
  assert (Htwo : Forall (fun k => String.length (Py.str_02d k) = 2%nat)
                   (seqZ 1 31)).
  { apply (bool_decide_unpack _). vm_compute. exact I. }
  rewrite Forall_seqZ in Hyears, Htwo.
  rewrite !length_append, (Hyears y), (Htwo m), (Htwo d) by lia.
  reflexivity.
Qed.

Lemma date_string_eight_characters_witness :
  date_string 2021 7 5 = "20210705"
  /\ String.length (date_string 2021 7 5) = 8%nat.
Proof.
  split; [reflexivity |].
  apply date_string_eight_characters; lia.
Defined.

(** ** More of the observation set builder *)

Lemma get_historical_weather_nasa_entries (response : Response)
    (params_data : gmap string (gmap string (option Q)))
    (current_year month day years : Z) :
  status_code response = 200 ->
  parameter response = Some params_data ->
  get_historical_weather_nasa response current_year month day years
  = (fun y => year_entry params_data y (date_string y month day))
    <$> List.filter (has_temperature params_data month day)
          (seqZ (current_year - years) years).
Proof.
  intros Hstatus Hparam. unfold get_historical_weather_nasa.
  rewrite Hstatus, Hparam. simpl negb. cbv iota.
  rewrite collect_years. unfold Py.range. simpl app.
  do 3 f_equal. lia.
Qed.

Lemma get_historical_weather_nasa_bad_reply (response : Response)
    (current_year month day years : Z) :
  status_code response <> 200 \/ parameter response = None ->
  get_historical_weather_nasa response current_year month day years = [].
Proof.
  unfold get_historical_weather_nasa. intros [H | H].
  - destruct (Z.eqb_spec (status_code response) 200); done.
  - rewrite H. by destruct (negb _).
Qed.

Lemma filter_length_le {A : Type} (p : A -> bool) (l : list A) :
  (length (List.filter p l) <= length l)%nat.
Proof.
  induction l as [| x l IH]; simpl; [lia |].
  destruct (p x); simpl; lia.
Qed.

Lemma get_historical_weather_nasa_length (response : Response)
    (current_year month day years : Z) :
  Z.of_nat (length (get_historical_weather_nasa response current_year
                      month day years)) <= Z.max 0 years.
Proof.
  destruct (Z.eq_dec (status_code response) 200) as [Hs | Hs];
    [destruct (parameter response) as [pd |] eqn:Hp |].
  - rewrite (get_historical_weather_nasa_entries response pd) by done.
    rewrite length_fmap.
    pose proof (filter_length_le (has_temperature pd month day)
                  (seqZ (current_year - years) years)) as H.
    rewrite length_seqZ in H. lia.
  - rewrite get_historical_weather_nasa_bad_reply by (by right). simpl; lia.
  - rewrite get_historical_weather_nasa_bad_reply by (by left). simpl; lia.
Qed.

(** X6: the builder returns at most [years] entries, and none at all when
    [years] is not positive, when the status of the reply is not 200 or
    when the reply lacks its parameter table. *)
Theorem get_historical_weather_nasa_size :
  forall (response : Response) (current_year month day years : Z),
    let obs :=
      get_historical_weather_nasa response current_year month day years in
    Z.of_nat (length obs) <= Z.max 0 years
    /\ (years <= 0 \/ status_code response <> 200
        \/ parameter response = None -> obs = []).
Proof.
  intros response cy m d years obs. split.
  - apply get_historical_weather_nasa_length.
  - intros [Hy | H].
    + pose proof (get_historical_weather_nasa_length response cy m d years)
        as Hlen.
      fold obs in Hlen. destruct obs; [reflexivity | simpl in Hlen; lia].
    + by apply get_historical_weather_nasa_bad_reply.
Qed.

Lemma filter_NoDup {A : Type} (p : A -> bool) (l : list A) :
  NoDup l -> NoDup (List.filter p l).
Proof.
  induction 1 as [| x l Hx Hl IH]; simpl; [constructor |].
  destruct (p x); [| exact IH]. constructor; [| exact IH].
  rewrite list_elem_of_In, List.filter_In, <- list_elem_of_In. tauto.
Qed.

(** X7: the entries the builder returns have pairwise different years
    and pairwise different date strings, and the date of each entry is the
    date string of its year. *)
Theorem get_historical_weather_nasa_distinct :
  forall (response : Response) (current_year month day years : Z),
    let obs :=
      get_historical_weather_nasa response current_year month day years in
    NoDup (map year obs) /\ NoDup (map date obs)
    /\ Forall (fun e => date e = date_string (year e) month day) obs.
Proof.
  intros response cy m d years obs. subst obs.
  destruct (Z.eq_dec (status_code response) 200) as [Hs | Hs];
    [destruct (parameter response) as [pd |] eqn:Hp |].
  - rewrite (get_historical_weather_nasa_entries response pd) by done.
    set (kept := List.filter (has_temperature pd m d) (seqZ (cy - years) years)).
    assert (Hkept : NoDup kept) by apply filter_NoDup, NoDup_seqZ.
    split_and!.
    + by rewrite years_of_entries.
    + clearbody kept. induction Hkept as [| y l Hy Hl IH]; [constructor |].
      simpl. constructor; [| exact IH].
      intros Hin. apply Hy.
      apply list_elem_of_In, List.in_map_iff in Hin as (e & He & Hin).
      apply list_elem_of_In, list_elem_of_fmap in Hin as (y' & -> & Hy').
      simpl in He. apply date_string_inj in He. by subst y'.
    + apply Forall_fmap, Forall_forall. by intros y _.
  - rewrite get_historical_weather_nasa_bad_reply by (by right).
    split_and!; constructor.
  - rewrite get_historical_weather_nasa_bad_reply by (by left).
    split_and!; constructor.
Qed.

(** ** The builder and the analysis together *)

Lemma analyze_weather_data_none (obs : list YearlyObservation) :
  analyze_weather_data obs = Py.Returned None
  <-> entirely_absent temp_avg obs.
Proof.
  rewrite <- valid_nil, <- is_empty_true. unfold analyze_weather_data.
  destruct (is_empty (valid temp_avg obs)) eqn:E.
  - by rewrite (analysis_locals_rejected obs E).
  - destruct (analysis_locals_accepted obs E) as (v & -> & _). done.
Qed.

Lemma get_value_without_key
    (params_data : gmap string (gmap string (option Q)))
    (month day y : Z) :
  has_temperature params_data month day y = false ->
  get_value params_data "T2M" (date_string y month day) = None.
Proof.
  unfold has_temperature, get_value. intros H.
  apply bool_decide_eq_false in H.
  destruct (default ∅ (params_data !! "T2M") !! date_string y month day)
    eqn:E; [| reflexivity].
  destruct H. by eexists.
Qed.

(** X8: for a well-formed reply, the analysis of what the builder returns
    has no result exactly when no requested year has a number for its
    temperature average in the reply (the date is missing from the series
    or holds a JSON null); and the confidence note of a result counts
    between 1 and [years] years. *)
Theorem analysis_of_built_observations :
  forall (response : Response)
         (params_data : gmap string (gmap string (option Q)))
         (current_year month day years : Z),
    status_code response = 200 ->
    parameter response = Some params_data ->
    let obs :=
      get_historical_weather_nasa response current_year month day years in
    (analyze_weather_data obs = Py.Returned None
     <-> forall y : Z,
           current_year - years <= y <= current_year - 1 ->
           get_value params_data "T2M" (date_string y month day) = None)
    /\ (forall r : AnalysisResult,
          analyze_weather_data obs = Py.Returned (Some r) ->
          exists n : Z,
            1 <= n <= years
            /\ r_confidence r = Py.str_int n ++ " years of NASA data").
Proof.
  intros response pd cy m d years Hs Hp obs.
  assert (Hobs := get_historical_weather_nasa_entries response pd cy m d
                    years Hs Hp).
  fold obs in Hobs. split.
  - rewrite analyze_weather_data_none. unfold entirely_absent.
    rewrite Hobs, Forall_fmap, Forall_forall. split.
    + intros H y Hy.
      destruct (has_temperature pd m d y) eqn:E;
        [| by apply get_value_without_key].
      apply (H y). apply list_elem_of_In, List.filter_In.
      split; [| exact E]. apply list_elem_of_In, elem_of_seqZ. lia.
    + intros H y Hy. apply list_elem_of_In, List.filter_In in Hy as [Hy _].
      apply list_elem_of_In, elem_of_seqZ in Hy. simpl. apply H. lia.
  - intros r Hr.
    destruct (analyze_weather_data_inv obs r Hr) as (v & Hv & ->).
    destruct (analysis_locals_inv obs v Hv) as [Hacc Hagg].
    exists (Z.of_nat (length obs)). split.
    + pose proof (get_historical_weather_nasa_length response cy m d years)
        as Hsize.
      fold obs in Hsize. destruct Hacc; simpl in *; lia.
    + cbn [results_of r_confidence]. by rewrite (agg_total_days _ _ Hagg).
Qed.

Lemma analysis_of_built_observations_witness :
  analyze_weather_data (get_historical_weather_nasa null_response 2023 7 15 1)
  = Py.Returned None
  <-> forall y : Z,
        2023 - 1 <= y <= 2023 - 1 ->
        get_value (default ∅ (parameter null_response)) "T2M"
          (date_string y 7 15) = None.
Proof.
  apply (analysis_of_built_observations null_response
           (default ∅ (parameter null_response)) 2023 7 15 1);
    reflexivity.
Defined.

(** ** More on rounding *)

Lemma round_half_even_mono (q q' : Q) :
  (q <= q')%Q -> Py.round_half_even q <= Py.round_half_even q'.
Proof.
  intros H. pose proof (Qfloor_resp_le q q' H) as Hf.
  pose proof (Qfloor_le q) as Hlo. pose proof (Qlt_floor q) as Hhi.
  pose proof (Qfloor_le q') as Hlo'. pose proof (Qlt_floor q') as Hhi'.
  rewrite inject_Z_plus in Hhi, Hhi'. change (inject_Z 1) with 1%Q in *.
  unfold Py.round_half_even.
  destruct (Z.eq_dec (Qfloor q) (Qfloor q')) as [E | Hne].
  - rewrite <- E in *.
    destruct (Qcompare_spec (q - inject_Z (Qfloor q)) (1 # 2));
      destruct (Qcompare_spec (q' - inject_Z (Qfloor q)) (1 # 2));
      destruct (Z.even (Qfloor q)); try lia; lra.
  - assert (Qfloor q + 1 <= Qfloor q') by lia.
    destruct (Qcompare (q - inject_Z (Qfloor q)) (1 # 2));
      destruct (Qcompare (q' - inject_Z (Qfloor q')) (1 # 2));
      destruct (Z.even (Qfloor q)); destruct (Z.even (Qfloor q')); lia.
Qed.

(** The float [round(x, 1)] is the rounded count of tenths, over 10. *)
Lemma value_round1 (x : Q) :
  Py.value (Py.round1 x) = Py.round_half_even (x * 10) # 10.
Proof.
  unfold Py.round1, Py.value. rewrite Z2N.id by lia. f_equal.
  destruct (Py.lt x 0) eqn:E; decided.
  - destruct (round_half_even_range (Qfloor (x * 10)) 0 (x * 10)).
    + apply Qfloor_le.
    + change (inject_Z 0) with 0%Q. lra.
    + lia.
  - destruct (round_half_even_range 0 (Qceiling (x * 10)) (x * 10)).
    + change (inject_Z 0) with 0%Q. lra.
    + apply Qle_ceiling.
    + lia.
Qed.


Lemma round1_mono (x y : Q) :
  (x <= y)%Q -> (Py.value (Py.round1 x) <= Py.value (Py.round1 y))%Q.
Proof.
  intros H. rewrite !value_round1.
  assert (Hr : Py.round_half_even (x * 10) <= Py.round_half_even (y * 10)).
  { apply round_half_even_mono. lra. }
  unfold Qle. simpl. lia.
Qed.

(** ** Bounds of the extremes and of the mean *)

Lemma min_fold_least (l : list Q) (x : Q) :
  let e := fold_left (fun m y => if Py.lt y m then y else m) l x in
  (e <= x)%Q /\ Forall (fun y => (e <= y)%Q) l /\ In e (x :: l).
Proof.
  revert x. induction l as [| y l IH]; intros x; simpl.
  - split_and!; [lra | constructor | by left].
  - destruct (IH (if Py.lt y x then y else x)) as (H1 & H2 & H3).
    destruct (Py.lt y x) eqn:E; decided.
    + split_and!; [lra | by constructor | simpl in *; tauto].
    + split_and!; [lra | constructor; [lra | done] | simpl in *; tauto].
Qed.

Lemma max_fold_greatest (l : list Q) (x : Q) :
  let e := fold_left (fun m y => if Py.gt y m then y else m) l x in
  (x <= e)%Q /\ Forall (fun y => (y <= e)%Q) l /\ In e (x :: l).
Proof.
  revert x. induction l as [| y l IH]; intros x; simpl.
  - split_and!; [lra | constructor | by left].
  - destruct (IH (if Py.gt y x then y else x)) as (H1 & H2 & H3).
    destruct (Py.gt y x) eqn:E; decided.
    + split_and!; [lra | by constructor | simpl in *; tauto].
    + split_and!; [lra | constructor; [lra | done] | simpl in *; tauto].
Qed.

Lemma min_least (l : list Q) (e : Q) :
  Py.min l = Py.Returned e ->
  Forall (fun y => (e <= y)%Q) l /\ In e l.
Proof.
  destruct l as [| x l]; [done |]. intros [= <-].
  destruct (min_fold_least l x) as (H1 & H2 & H3).
  split; [by constructor | done].
Qed.

Lemma max_greatest (l : list Q) (e : Q) :
  Py.max l = Py.Returned e ->
  Forall (fun y => (y <= e)%Q) l /\ In e l.
Proof.
  destruct l as [| x l]; [done |]. intros [= <-].
  destruct (max_fold_greatest l x) as (H1 & H2 & H3).
  split; [by constructor | done].
Qed.

Lemma inject_Z_length_cons {A : Type} (x : A) (l : list A) :
  (inject_Z (Z.of_nat (length (x :: l)))
   == inject_Z (Z.of_nat (length l)) + 1)%Q.
Proof.
  simpl length. rewrite Nat2Z.inj_succ. unfold Z.succ.
  by rewrite inject_Z_plus.
Qed.

Lemma fold_plus_lower (lo : Q) (l : list Q) :
  Forall (fun y => (lo <= y)%Q) l ->
  forall a : Q,
    (a + lo * inject_Z (Z.of_nat (length l)) <= fold_left Qplus l a)%Q.
Proof.
  induction 1 as [| y l Hy _ IH]; intros a.
  - simpl fold_left. change (inject_Z (Z.of_nat (length []))) with 0%Q. lra.
  - rewrite inject_Z_length_cons. simpl fold_left.
    specialize (IH (a + y)%Q). lra.
Qed.

Lemma fold_plus_upper (hi : Q) (l : list Q) :
  Forall (fun y => (y <= hi)%Q) l ->
  forall a : Q,
    (fold_left Qplus l a <= a + hi * inject_Z (Z.of_nat (length l)))%Q.
Proof.
  induction 1 as [| y l Hy _ IH]; intros a.
  - simpl fold_left. change (inject_Z (Z.of_nat (length []))) with 0%Q. lra.
  - rewrite inject_Z_length_cons. simpl fold_left.
    specialize (IH (a + y)%Q). lra.
Qed.

Lemma mean_lower (lo m : Q) (l : list Q) :
  Py.mean l = Py.Returned m ->
  Forall (fun y => (lo <= y)%Q) l -> (lo <= m)%Q.
Proof.
  destruct l as [| x l]; [done |]. intros [= <-] H.
  apply Qle_shift_div_l.
  - apply inject_Z_positive. simpl. lia.
  - pose proof (fold_plus_lower lo (x :: l) H 0) as Hs.
    rewrite Qplus_0_l in Hs. exact Hs.
Qed.

Lemma mean_upper (hi m : Q) (l : list Q) :
  Py.mean l = Py.Returned m ->
  Forall (fun y => (y <= hi)%Q) l -> (m <= hi)%Q.
Proof.
  destruct l as [| x l]; [done |]. intros [= <-] H.
  apply Qle_shift_div_r.
  - apply inject_Z_positive. simpl. lia.
  - pose proof (fold_plus_upper hi (x :: l) H 0) as Hs.
    rewrite Qplus_0_l in Hs. exact Hs.
Qed.

(** What a rounded primitive returned, taken apart. *)
Lemma rounded_returned (o : Py.outcome Q) (y : Py.num) :
  Py.round1 <$> o = Py.Returned y ->
  exists x, o = Py.Returned x /\ y = Py.round1 x.
Proof. destruct o as [e | x]; [done |]. intros [= <-]. by exists x. Qed.

(** ** Accuracy and order of the statistics *)



(** X10: the average precipitation of a result never exceeds its maximum
    precipitation. *)
Theorem avg_rain_at_most_max_rain :
  forall (obs : list YearlyObservation) (v : Locals),
    analysis_locals obs = Py.Returned (Some v) ->
    (Py.value (avg_rain v) <= Py.value (max_rain v))%Q.
Proof.
  intros obs v Hv.
  destruct (analysis_locals_inv obs v Hv) as [_ Hagg].
  pose proof (agg_avg_rain _ _ Hagg) as Ha.
  pose proof (agg_max_rain _ _ Hagg) as Hx.
  destruct (is_empty (valid precip obs)).
  - rewrite Ha, Hx. simpl. lra.
  - apply rounded_returned in Ha as (m & Hm & ->).
    apply rounded_returned in Hx as (e & He & ->).
    apply round1_mono. apply (mean_upper e m _ Hm).
    by apply max_greatest.
Qed.

Lemma avg_rain_at_most_max_rain_witness :
  exists v,
    analysis_locals scenario_A = Py.Returned (Some v)
    /\ avg_rain v = Py.Float1 false 13
    /\ max_rain v = Py.Float1 false 20
    /\ (Py.value (avg_rain v) <= Py.value (max_rain v))%Q.
Proof.
  eexists. split; [vm_compute; reflexivity |].
  split; [reflexivity |]. split; [reflexivity |].
  eapply (avg_rain_at_most_max_rain scenario_A).
  vm_compute; reflexivity.
Defined.

Lemma in_order_lower (lo : Q) (obs : list YearlyObservation) :
  Forall temperatures_in_order obs ->
  Forall (fun y => (lo <= y)%Q) (valid temp_min obs) ->
  Forall (fun y => (lo <= y)%Q) (valid temp_avg obs).
Proof.
  unfold valid. induction 1 as [| d obs Hd _ IH]; [constructor |].
  destruct Hd as (tn & ta & tx & Hn & Ha & Hx & H1 & H2).
  cbn [omap list_omap]. rewrite Hn, Ha.
  intros [Hlo Hrest]%Forall_cons. apply Forall_cons.
  split; [lra | by apply IH].
Qed.

Lemma in_order_upper (hi : Q) (obs : list YearlyObservation) :
  Forall temperatures_in_order obs ->
  Forall (fun y => (y <= hi)%Q) (valid temp_max obs) ->
  Forall (fun y => (y <= hi)%Q) (valid temp_avg obs).
Proof.
  unfold valid. induction 1 as [| d obs Hd _ IH]; [constructor |].
  destruct Hd as (tn & ta & tx & Hn & Ha & Hx & H1 & H2).
  cbn [omap list_omap]. rewrite Hx, Ha.
  intros [Hhi Hrest]%Forall_cons. apply Forall_cons.
  split; [lra | by apply IH].
Qed.

(** X11: when every entry has its minimal, average and maximal
    temperature with the minimal at most the average and the average at
    most the maximal, the range of the result brackets its average:
    min_temp <= avg_temp <= max_temp. *)
Theorem temp_range_brackets_avg_temp :
  forall (obs : list YearlyObservation) (v : Locals),
    Forall temperatures_in_order obs ->
    analysis_locals obs = Py.Returned (Some v) ->
    (Py.value (min_temp v) <= Py.value (avg_temp v))%Q
    /\ (Py.value (avg_temp v) <= Py.value (max_temp v))%Q.
Proof.
  intros obs v Hord Hv.
  destruct (analysis_locals_inv obs v Hv) as [_ Hagg].
  destruct (rounded_returned _ _ (agg_avg_temp _ _ Hagg)) as (m & Hm & Ea).
  pose proof (agg_min_temp _ _ Hagg) as Hn.
  pose proof (agg_max_temp _ _ Hagg) as Hx.
  split.
  - destruct (is_empty (valid temp_min obs)).
    + rewrite Hn. lra.
    + apply rounded_returned in Hn as (e & He & ->). rewrite Ea.
      apply round1_mono, (mean_lower e m _ Hm).
      apply in_order_lower; [done |]. by apply min_least.
  - destruct (is_empty (valid temp_max obs)).
    + rewrite Hx. lra.
    + apply rounded_returned in Hx as (e & He & ->). rewrite Ea.
      apply round1_mono, (mean_upper e m _ Hm).
      apply in_order_upper; [done |]. by apply max_greatest.
Qed.

Lemma temp_range_brackets_avg_temp_witness :
  exists v,
    analysis_locals scenario_A = Py.Returned (Some v)
    /\ (Py.value (min_temp v) <= Py.value (avg_temp v))%Q
    /\ (Py.value (avg_temp v) <= Py.value (max_temp v))%Q.
Proof.
  eexists. split; [vm_compute; reflexivity |].
  eapply (temp_range_brackets_avg_temp scenario_A).
  - repeat constructor; (do 3 eexists; split_and!; [done .. | |]);
      by vm_compute.
  - vm_compute; reflexivity.
Defined.

(** ** The threshold of "Rainy" on the exact mean *)





(** ** The order of the entries *)











(** ** The tip *)

Lemma determine_main_condition_label (a m r w : Q) :
  In (determine_main_condition a m r w) seven_labels.
Proof.
  pose proof (determine_main_condition_sound a m r w) as H.
  unfold seven_labels. destruct H; simpl; tauto.
Qed.

Lemma generate_tip_of_label (label temp_range rain_info : string) :
  In label seven_labels ->
  generate_tip label temp_range rain_info
  <> "Check the weather before heading out.".
Proof.
  unfold seven_labels. simpl. intros H E.
  repeat (destruct H as [<- | H]; [by vm_compute in E |]). done.
Qed.

Lemma generate_tip_of_other (label temp_range rain_info : string) :
  ~ In label seven_labels ->
  generate_tip label temp_range rain_info
  = "Check the weather before heading out.".
Proof.
  unfold seven_labels. simpl. intros H. unfold generate_tip.
  rewrite !list_to_map_cons, list_to_map_nil. cbn [fst snd].
  rewrite !lookup_insert_ne by (intros <-; tauto).
  by rewrite lookup_empty.
Qed.

(** X14: the tip is the generic one exactly for a label that is none of
    the seven conditions; each of the seven has a tip of its own, whatever
    the range and the rain summary. *)
Theorem generate_tip_generic_iff_unknown_label :
  forall label temp_range rain_info : string,
    generate_tip label temp_range rain_info
    = "Check the weather before heading out."
    <-> ~ In label seven_labels.
Proof.
  intros label tr ri. split.
  - intros E Hin. by apply (generate_tip_of_label label tr ri Hin).
  - apply generate_tip_of_other.
Qed.

(** X15: whenever the analysis has a result, its prediction is one of the
    seven conditions and the tip made from it is the tip of that condition,
    never the generic one. *)
Theorem tip_of_analysis_is_never_generic :
  forall (obs : list YearlyObservation) (analysis : AnalysisResult)
         (tip : string),
    analysis_and_tip obs = Py.Returned (Some (analysis, tip)) ->
    analyze_weather_data obs = Py.Returned (Some analysis)
    /\ In (r_main_prediction analysis) seven_labels
    /\ tip = generate_tip (r_main_prediction analysis)
               (r_temp_range analysis) (r_rain_info analysis)
    /\ tip <> "Check the weather before heading out.".
Proof.
  intros obs a tip H. unfold analysis_and_tip in H.
  destruct (analyze_weather_data obs) as [e | [a' |]] eqn:Ha; try done.
  injection H as <- <-.
  destruct (analyze_weather_data_inv obs a' Ha) as (v & Hv & ->).
  destruct (analysis_locals_inv obs v Hv) as [_ Hagg].
  assert (Hlabel : In (r_main_prediction (results_of v)) seven_labels).
  { cbn [results_of r_main_prediction].
    rewrite (agg_main_prediction _ _ Hagg).
    apply determine_main_condition_label. }
  split_and!; [done | done | done |].
  by apply generate_tip_of_label.
Qed.

Lemma tip_of_analysis_is_never_generic_witness :
  exists analysis tip,
    analysis_and_tip scenario_A = Py.Returned (Some (analysis, tip))
    /\ tip = "Perfect day (15.0°C - 27.0°C). Ideal for outdoor plans!"
    /\ tip <> "Check the weather before heading out.".
Proof.
  do 2 eexists. split; [vm_compute; reflexivity |].
  split; [reflexivity |].
  eapply (tip_of_analysis_is_never_generic scenario_A).
  vm_compute; reflexivity.
Defined.
